(** * OSCompatible::thread (include/OSCompatible/thread.hpp), POSIX branch

    A shallow embedding of the header-only thread class: the thread objects
    live in a heap indexed by their address ([this]), the promise/future
    shared states live in a second heap, and every native pthread call is
    appended to a trace whose return codes come from an OS oracle.  The
    worker lambda captures [this] (not the shared_ptr), so it reaches the
    promise through the object's current [m_promise] field: the heap makes
    that aliasing visible.

    The older class OSCompatibleThread (src/OSCompatibleThread.cpp) is
    embedded where a claim cites it. *)

From stdpp Require Import base gmap list strings.
From Stdlib Require Import ZArith.

Local Open Scope Z_scope.

Module OSCompatible.

(** ** Data *)

(** struct thread::Properties *)
Record Properties := mk_Properties {
  priority : Z;
  policy : Z;
  affinity : list bool   (* std::vector<bool> *)
}.

Definition DEFAULT_PRIORITY : Z := 255.
Definition DEFAULT_POLICY : Z := 255.
Definition DEFAULT_AFFINITY : list bool := [].
Definition DEFAULT_PROPERTIES : Properties :=
  mk_Properties DEFAULT_PRIORITY DEFAULT_POLICY DEFAULT_AFFINITY.

(** Values a callable can return (the payload of a [std::any]). *)
Inductive value :=
| VInt (z : Z)
| VBool (b : bool)
| VStr (s : string).

(** [std::any]: empty, or holding a value. *)
Inductive any :=
| any_empty
| any_of (v : value).

(** A user exception object (its dynamic type and its payload). *)
Record exception := mk_exception { exn_type : string; exn_what : string }.

Inductive future_errc := no_state | promise_already_satisfied.

(** Everything that can be thrown in this code. *)
Inductive cxx_exn :=
| UserExn (e : exception)
| FutureError (c : future_errc)
| RuntimeError (msg : string).

(** What the bound callable [boundFunc()] does when invoked: a void function
    returns, a non-void one returns a value, or it throws. *)
Inductive call_outcome :=
| returns_void
| returns (v : value)
| throws (e : exception).

(** Content of a ready shared state: a value or an [exception_ptr]. *)
Inductive outcome :=
| stored_value (a : any)
| stored_exception (e : cxx_exn).

Inductive shared_state :=
| pending
| ready (o : outcome).

(** Data members of class thread (POSIX).  [m_handle = 0] is
    [pthread_t()].  [m_promise] is the [shared_ptr<promise>] (None = null),
    [m_future] the future's shared state (None = no state); both name a
    shared state of the state heap.  [m_func] is moved into the heap-allocated
    [m_funcptr] before the thread is created, so it is not kept here. *)
Record thread := mk_thread {
  m_handle : Z;
  m_initialized : bool;
  m_promise : option nat;
  m_future : option nat;
  m_properties : Properties
}.

Definition set_handle (t : thread) (h : Z) : thread :=
  mk_thread h (m_initialized t) (m_promise t) (m_future t) (m_properties t).
Definition set_initialized (t : thread) (b : bool) : thread :=
  mk_thread (m_handle t) b (m_promise t) (m_future t) (m_properties t).
Definition set_future (t : thread) (f : option nat) : thread :=
  mk_thread (m_handle t) (m_initialized t) (m_promise t) f (m_properties t).

(** Native calls, as they reach the OS.  [pthread_create_c None] is a call
    with a null attribute pointer, [pthread_create_c (Some a)] one with
    [&m_attr] of the object at address [a]. *)
Inductive native_call :=
| pthread_attr_init_c
| pthread_attr_setschedpolicy_c (p : Z)
| pthread_attr_setschedparam_c (prio : Z)
| pthread_attr_setaffinity_np_c (cpus : list nat)
| pthread_attr_setinheritsched_c
| pthread_create_c (attr : option nat)
| pthread_join_c (h : Z)
| pthread_detach_c (h : Z)
| pthread_attr_destroy_c.

(** The OS: the return code of every native call and the id it gives a new
    thread. *)
Record os_model := mk_os { os_rc : native_call -> Z; os_new_handle : Z }.

(** A spawned native thread runs [threadFuncWrapper] on the heap copy of
    the worker lambda, which captured [this] and [boundFunc]. *)
Record spawned := mk_spawned { sp_this : nat; sp_func : call_outcome }.

Record world := mk_world {
  w_objs : gmap nat thread;
  w_states : gmap nat shared_state;
  w_threads : gmap Z spawned;
  w_trace : list native_call
}.

(** ** A state and exception monad *)

Inductive res (A : Type) :=
| Ok (a : A)
| Throw (e : cxx_exn)
| Crash (why : string)        (* undefined behaviour or std::terminate *)
| Block.                      (* waits for another thread *)
Arguments Ok {A} a.
Arguments Throw {A} e.
Arguments Crash {A} why.
Arguments Block {A}.

Definition M (A : Type) : Type := world -> res A * world.

Global Instance M_ret : MRet M := fun A a w => (Ok a, w).
Global Instance M_bind : MBind M := fun A B f m w =>
  match m w with
  | (Ok a, w') => f a w'
  | (Throw e, w') => (Throw e, w')
  | (Crash s, w') => (Crash s, w')
  | (Block, w') => (Block, w')
  end.

Definition throw {A} (e : cxx_exn) : M A := fun w => (Throw e, w).
Definition crash {A} (why : string) : M A := fun w => (Crash why, w).
Definition block {A} : M A := fun w => (Block, w).

(** [try { m } catch (...) { h(current_exception()) }] *)
Definition try_catch {A} (m : M A) (h : cxx_exn -> M A) : M A := fun w =>
  match m w with
  | (Throw e, w') => h e w'
  | r => r
  end.

Definition get_obj (this : nat) : M thread := fun w =>
  match w_objs w !! this with
  | Some t => (Ok t, w)
  | None => (Crash "dangling this", w)
  end.
Definition put_obj (this : nat) (t : thread) : M unit := fun w =>
  (Ok tt, mk_world (<[this := t]> (w_objs w)) (w_states w) (w_threads w) (w_trace w)).
Definition get_state (s : nat) : M shared_state := fun w =>
  match w_states w !! s with
  | Some st => (Ok st, w)
  | None => (Crash "dangling shared state", w)
  end.
Definition put_state (s : nat) (st : shared_state) : M unit := fun w =>
  (Ok tt, mk_world (w_objs w) (<[s := st]> (w_states w)) (w_threads w) (w_trace w)).
Definition add_thread (h : Z) (sp : spawned) : M unit := fun w =>
  (Ok tt, mk_world (w_objs w) (w_states w) (<[h := sp]> (w_threads w)) (w_trace w)).

(** Issue a native call: it is recorded, and the OS answers. *)
Definition native (os : os_model) (c : native_call) : M Z := fun w =>
  (Ok (os_rc os c), mk_world (w_objs w) (w_states w) (w_threads w) (w_trace w ++ [c])).

(** ** The result channel: std::promise / std::future *)

(** [m_promise->set_value(x)] / [m_promise->set_exception(p)], reached
    through the object at [this] as the worker lambda does. *)
Definition promise_set (this : nat) (o : outcome) : M unit :=
  t ← get_obj this;
  match m_promise t with
  | None => crash "null shared_ptr<promise> dereferenced"
  | Some s =>
      st ← get_state s;
      match st with
      | pending => put_state s (ready o)
      | ready _ => throw (FutureError promise_already_satisfied)
      end
  end.

(** thread::getResult: [return m_future.get();].  [get] waits for the
    state, releases it (the future is no longer valid) and returns the value
    or rethrows the stored exception.  On a future without state libstdc++
    ([_State_base::_S_check]) throws [future_error(no_state)]. *)
Definition getResult (this : nat) : M any :=
  t ← get_obj this;
  match m_future t with
  | None => throw (FutureError no_state)
  | Some s =>
      st ← get_state s;
      match st with
      | pending => block
      | ready o =>
          put_obj this (set_future t None);;
          match o with
          | stored_value a => mret a
          | stored_exception e => throw e
          end
      end
  end.

(** ** The worker *)

(** The lambda stored in [m_func] (thread.hpp lines 385-403 and 521-539). *)
Definition worker_lambda (this : nat) (boundFunc : call_outcome) : M unit :=
  try_catch
    (match boundFunc with
     | returns_void => promise_set this (stored_value any_empty)
     | returns v => promise_set this (stored_value (any_of v))
     | throws e => throw (UserExn e)
     end)
    (fun e => promise_set this (stored_exception e)).

(** threadFuncWrapper: an exception leaving the thread function calls
    std::terminate. *)
Definition threadFuncWrapper (sp : spawned) : M unit := fun w =>
  match worker_lambda (sp_this sp) (sp_func sp) w with
  | (Throw _, w') => (Crash "std::terminate", w')
  | r => r
  end.


(** The OS schedules the native thread [h]. *)
Definition run_thread (h : Z) : M unit := fun w =>
  match w_threads w !! h with
  | Some sp => threadFuncWrapper sp w
  | None => (Crash "no such thread", w)
  end.

(** ** Construction *)

(** make_shared<promise<any>>() and m_promise->get_future(): a fresh shared
    state [s]. *)
Definition new_state (s : nat) : M unit := put_state s pending.

(** [pthread_create]: on success the new id is written to [m_handle] and
    the thread is spawned on the lambda. *)
Definition create_thread (os : os_model) (this : nat) (attr : option nat)
    (boundFunc : call_outcome) : M Z :=
  rc ← native os (pthread_create_c attr);
  if rc =? 0 then
    t ← get_obj this;
    put_obj this (set_handle t (os_new_handle os));;
    add_thread (os_new_handle os) (mk_spawned this boundFunc);;
    mret rc
  else mret rc.

(** thread::thread(Function&&, Args&&...) (lines 363-423), POSIX. *)
Definition thread_ctor (os : os_model) (this s : nat) (boundFunc : call_outcome)
    : M unit :=
  new_state s;;
  put_obj this (mk_thread 0 false (Some s) (Some s) DEFAULT_PROPERTIES);;
  rc ← create_thread os this None boundFunc;
  if rc =? 0 then
    t ← get_obj this; put_obj this (set_initialized t true)
  else throw (RuntimeError "Failed to create thread :").

(** thread::thread() (lines 348-359).  [m_initialized] is not in the
    member initialiser list: [junk_init] is what it happens to hold. *)
Definition thread_default_ctor (this s : nat) (junk_init : bool) : M unit :=
  new_state s;;
  put_obj this (mk_thread 0 junk_init (Some s) (Some s) DEFAULT_PROPERTIES).

(** The member functions are noexcept or run at a thread's top level: an
    exception leaving them calls std::terminate. *)
Definition terminate_on_throw {A} (m : M A) : M A := fun w =>
  match m w with
  | (Throw _, w') => (Crash "std::terminate", w')
  | r => r
  end.

(** ** join *)

(** thread::join (lines 609-627), POSIX: no state check; [pthread_join] on
    [m_handle], a runtime_error when it fails, otherwise the handle is
    reset. *)
Definition join (os : os_model) (this : nat) : M unit :=
  t ← get_obj this;
  rc ← native os (pthread_join_c (m_handle t));
  if rc =? 0 then
    t' ← get_obj this; put_obj this (set_handle t' 0)
  else throw (RuntimeError "Failed to join thread:").

(** thread::joinable *)
Definition joinable (t : thread) : bool := negb (m_handle t =? 0).


(** thread::detach (lines 630-651), POSIX. *)
Definition detach (os : os_model) (this : nat) : M unit :=
  t ← get_obj this;
  rc ← native os (pthread_detach_c (m_handle t));
  if rc =? 0 then
    t' ← get_obj this; put_obj this (set_handle t' 0)
  else throw (RuntimeError "Failed to detach thread").

(** ** Scheduling attributes on [m_attr] *)

(** thread::SetPriority (lines 682-707): the guard compares the priority
    with DEFAULT_POLICY (equal to DEFAULT_PRIORITY, 255). *)
Definition SetPriority (os : os_model) (this : nat) (properties : Properties)
    : M unit :=
  if priority properties =? DEFAULT_POLICY then mret tt
  else
    rc ← native os (pthread_attr_setschedparam_c (priority properties));
    if rc =? 0 then mret tt
    else throw (RuntimeError "Failed to set thread priority: ").

(** thread::SetPolicy (lines 710-726): the guard reads the argument, the
    call reads [m_properties]. *)
Definition SetPolicy (os : os_model) (this : nat) (properties : Properties)
    : M unit :=
  if policy properties =? DEFAULT_POLICY then mret tt
  else
    t ← get_obj this;
    rc ← native os (pthread_attr_setschedpolicy_c (policy (m_properties t)));
    if rc =? 0 then mret tt
    else throw (RuntimeError "Failed to set thread policy: ").

(** The indices [i] (counted from [i0]) with [affinity[i]] true: the loop
    of SetAffinity and SetCPUcores. *)
Fixpoint flagged_from (i0 : nat) (l : list bool) : list nat :=
  match l with
  | [] => []
  | b :: l' => if b then i0 :: flagged_from (S i0) l' else flagged_from (S i0) l'
  end.

(** [CPU_SET(i, &cpuset)] ignores [i >= CPU_SETSIZE]. *)
Definition CPU_SETSIZE : nat := 1024.
Definition cpuset_of (l : list bool) : list nat :=
  filter (fun i => (i < CPU_SETSIZE)%nat) (flagged_from 0 l).

(** thread::SetAffinity (lines 728-782), POSIX: reads [m_properties]. *)
Definition SetAffinity (os : os_model) (this : nat) (properties : Properties)
    : M unit :=
  t ← get_obj this;
  let aff := affinity (m_properties t) in
  match aff with
  | [] => mret tt
  | _ :: _ =>
      let coresCnt := length (flagged_from 0 aff) in
      if Nat.eqb coresCnt (length aff) then mret tt
      else
        rc ← native os (pthread_attr_setaffinity_np_c (cpuset_of aff));
        if rc =? 0 then mret tt
        else throw (RuntimeError "Failed to set thread affinity(CPU cores): ")
  end.

(** thread::thread(const Properties&, Function&&, Args&&...) (lines
    432-568), POSIX branch. *)
Definition thread_ctor_props (os : os_model) (this s : nat)
    (properties : Properties) (boundFunc : call_outcome) : M unit :=
  new_state s;;
  put_obj this (mk_thread 0 false (Some s) (Some s) properties);;
  rc ← native os pthread_attr_init_c;
  if negb (rc =? 0) then
    throw (RuntimeError "Failed to initialize thread attributes: ")
  else
    SetPolicy os this properties;;
    SetPriority os this properties;;
    SetAffinity os this properties;;
    rc ← native os pthread_attr_setinheritsched_c;
    if negb (rc =? 0) then
      throw (RuntimeError "Failed to set inherit scheduler attribute: ")
    else
      rc ← create_thread os this None boundFunc;
      if negb (rc =? 0) then throw (RuntimeError "Failed to create thread: ")
      else t ← get_obj this; put_obj this (set_initialized t true).

(** ** Moves *)

(** thread::thread(thread&&) (lines 571-583), constructing at [this] from
    [other].  [m_initialized] and [m_properties] are not in the member
    initialiser list: [junk_init] and [junk_props] are what they happen to
    hold. *)
Definition move_ctor (this other : nat) (junk_init : bool)
    (junk_props : Properties) : M unit :=
  o ← get_obj other;
  put_obj this (mk_thread (m_handle o) junk_init (m_promise o) (m_future o) junk_props);;
  put_obj other (mk_thread 0 (m_initialized o) None None (m_properties o)).

(** thread::operator=(thread&&) noexcept (lines 586-606). *)
Definition move_assign (os : os_model) (this other : nat) : M unit :=
  terminate_on_throw
    (if Nat.eqb this other then mret tt
     else
       t ← get_obj this;
       (if joinable t then join os this else mret tt);;
       t ← get_obj this;
       o ← get_obj other;
       put_obj this (mk_thread (m_handle o) (m_initialized t) (m_promise o)
                       (m_future o) (m_properties t));;
       o' ← get_obj other;
       put_obj other (mk_thread 0 (m_initialized o') None None (m_properties o'))).

(** ** What the owner observes *)

(** The state a successful construction leaves behind: the object at
    [this] holds the native handle [h], its promise and its future share
    the pending state [s], and the native thread [h] runs the lambda bound
    to [this] and to the callable [f]. *)
Definition spawned_in (this s : nat) (h : Z) (f : call_outcome) (w : world)
    : Prop :=
  exists t, w_objs w !! this = Some t /\ m_handle t = h /\
    m_promise t = Some s /\ m_future t = Some s /\
    w_states w !! s = Some pending /\ w_threads w !! h = Some (mk_spawned this f).

(** What the worker writes into the shared state for a callable. *)
Definition written (f : call_outcome) : outcome :=
  match f with
  | returns_void => stored_value any_empty
  | returns v => stored_value (any_of v)
  | throws e => stored_exception (UserExn e)
  end.

Definition ran_in (this s : nat) (h : Z) (f : call_outcome) (w : world) : Prop :=
  exists t, w_objs w !! this = Some t /\ m_handle t = h /\
    m_promise t = Some s /\ m_future t = Some s /\
    w_states w !! s = Some (ready (written f)).

(** Construction at [this] with either constructor succeeded. *)
Definition constructed (os : os_model) (this s : nat) (f : call_outcome)
    (w w1 : world) : Prop :=
  thread_ctor os this s f w = (Ok tt, w1) \/
  exists props, thread_ctor_props os this s props f w = (Ok tt, w1).

(** The worker thread runs to its end, then the owner calls getResult. *)
Definition observe (os : os_model) (this : nat) : M any :=
  run_thread (os_new_handle os);; getResult this.

(** Value the claims expect from getResult for a callable. *)
Definition produced (f : call_outcome) : res any :=
  match f with
  | returns_void => Ok any_empty
  | returns v => Ok (any_of v)
  | throws e => Throw (UserExn e)
  end.

(** A world with no object, and an OS on which every call succeeds and
    a new thread gets id 7. *)
Definition w_empty : world := mk_world ∅ ∅ ∅ [].
Definition os_ok : os_model := mk_os (fun _ => 0) 7.

(** The calls on [m_attr] each setter makes for properties [p]. *)
Definition policy_calls (p : Properties) : list native_call :=
  if policy p =? DEFAULT_POLICY then []
  else [pthread_attr_setschedpolicy_c (policy p)].
Definition priority_calls (p : Properties) : list native_call :=
  if priority p =? DEFAULT_PRIORITY then []
  else [pthread_attr_setschedparam_c (priority p)].
Definition affinity_calls (p : Properties) : list native_call :=
  match affinity p with
  | [] => []
  | _ :: _ =>
      if Nat.eqb (length (flagged_from 0 (affinity p))) (length (affinity p)) then []
      else [pthread_attr_setaffinity_np_c (cpuset_of (affinity p))]
  end.

End OSCompatible.

(** * OSCompatibleThread (src/OSCompatibleThread.cpp), Linux *)

Module OSCompatibleThread.
Import OSCompatible.

Inductive ReturnStatus :=
| SUCCESS
| FAILED_SET_PRIORITY
| FAILED_SET_POLICY
| FAILED_SET_INHERIT_SCHED
| FAILED_SET_CPU_CORES
| FAILED_INITIALIZE_THREAD
| FAILED_JOIN_THREAD
| FAILED_WAIT_TIMEOUT
| FAILED_UNEXPECTED_ERROR
| FAILED_FREE_RESOURCES
| FAILED_NO_CPU_CORES_FLAGGED
| FAILED_THREAD_ALREADY_INITIALIZED
| FAILED_THREAD_NOT_INITIALIZED.

(** The members the lifecycle reads: [m_thread] and [m_isInitialized]. *)
Record OSCT := mk_OSCT { m_thread : Z; m_isInitialized : bool }.

(** OSCompatibleThread::OSCompatibleThread() *)
Definition OSCT_default : OSCT := mk_OSCT 0 false.

(** A member function returns its status, the object after the call and
    the native calls it made. *)
Definition FreeNDestroy (os : os_model) (t : OSCT)
    : ReturnStatus * OSCT * list native_call :=
  if negb (os_rc os pthread_attr_destroy_c =? 0)
  then (FAILED_FREE_RESOURCES, t, [pthread_attr_destroy_c])
  else (SUCCESS, mk_OSCT 0 false, [pthread_attr_destroy_c]).

(** OSCompatibleThread::Join (lines 166-192). *)
Definition Join (os : os_model) (t : OSCT) : ReturnStatus * OSCT * list native_call :=
  if negb (m_isInitialized t) then (FAILED_THREAD_NOT_INITIALIZED, t, [])
  else
    let c := pthread_join_c (m_thread t) in
    if negb (os_rc os c =? 0) then (FAILED_JOIN_THREAD, t, [c])
    else
      let '(r, t', tr) := FreeNDestroy os t in (r, t', c :: tr).

(** OSCompatibleThread::SetCPUcores (lines 231-259). *)
Definition SetCPUcores (os : os_model) (cores : list bool)
    : ReturnStatus * list native_call :=
  let cntCores := length (flagged_from 0 cores) in
  if Nat.eqb cntCores 0 then (FAILED_NO_CPU_CORES_FLAGGED, [])
  else
    let c := pthread_attr_setaffinity_np_c (cpuset_of cores) in
    if negb (os_rc os c =? 0) then (FAILED_SET_CPU_CORES, [c]) else (SUCCESS, [c]).

(** [if(status)]: any status other than SUCCESS (0) is an error. *)
Definition failed (r : ReturnStatus) : bool :=
  match r with SUCCESS => false | _ => true end.

(** OSCompatibleThread::SetPolicy (lines 206-215). *)
Definition SetPolicy (os : os_model) (policy : Z) : ReturnStatus * list native_call :=
  let c := pthread_attr_setschedpolicy_c policy in
  if negb (os_rc os c =? 0) then (FAILED_SET_POLICY, [c]) else (SUCCESS, [c]).

(** OSCompatibleThread::SetPriority (lines 217-229). *)
Definition SetPriority (os : os_model) (priority : Z) : ReturnStatus * list native_call :=
  let c := pthread_attr_setschedparam_c priority in
  if negb (os_rc os c =? 0) then (FAILED_SET_PRIORITY, [c]) else (SUCCESS, [c]).

(** OSCompatibleThread::Init (lines 99-162), for the object at address
    [this]: [pthread_create] gets [&m_attributes].  The thread function and
    its argument only reach the OS.  Of the object only the lifecycle
    members are kept: the message [LoadErrMsg] writes into [m_errMsg] on
    each failure is not modelled, and the state of [m_attributes] is seen
    only through the attribute calls of the trace. *)
Definition Init (os : os_model) (this : nat) (t : OSCT) (priority policy : Z)
    (cores : list bool) : ReturnStatus * OSCT * list native_call :=
  if m_isInitialized t then (FAILED_THREAD_ALREADY_INITIALIZED, t, [])
  else
    let c0 := pthread_attr_init_c in
    if negb (os_rc os c0 =? 0) then (FAILED_INITIALIZE_THREAD, t, [c0])
    else
      let c1 := pthread_attr_setinheritsched_c in
      if negb (os_rc os c1 =? 0) then (FAILED_SET_INHERIT_SCHED, t, [c0; c1])
      else
        let '(r2, tr2) := SetPolicy os policy in
        if failed r2 then (FAILED_SET_POLICY, t, [c0; c1] ++ tr2)
        else
          let '(r3, tr3) := SetPriority os priority in
          if failed r3 then (FAILED_SET_PRIORITY, t, [c0; c1] ++ tr2 ++ tr3)
          else
            let '(r4, tr4) := SetCPUcores os cores in
            if failed r4 then (FAILED_SET_CPU_CORES, t, [c0; c1] ++ tr2 ++ tr3 ++ tr4)
            else
              let c5 := pthread_create_c (Some this) in
              let tr := [c0; c1] ++ tr2 ++ tr3 ++ tr4 ++ [c5] in
              if negb (os_rc os c5 =? 0) then (FAILED_INITIALIZE_THREAD, t, tr)
              else (SUCCESS, mk_OSCT (os_new_handle os) true, tr).

(** The calls of a complete Init. *)
Definition init_calls (this : nat) (priority policy : Z) (cores : list bool)
    : list native_call :=
  [pthread_attr_init_c; pthread_attr_setinheritsched_c;
   pthread_attr_setschedpolicy_c policy; pthread_attr_setschedparam_c priority;
   pthread_attr_setaffinity_np_c (cpuset_of cores); pthread_create_c (Some this)].

End OSCompatibleThread.

(** * Properties *)

Module Theory.
Import OSCompatible.

(** ** Proof automation *)

Ltac run :=
  repeat (unfold mbind, M_bind, mret, M_ret in *; cbn in *;
          rewrite ?lookup_insert_eq in *;
          try match goal with
              | H : ?m !! ?k = _ |- context [?m !! ?k] => rewrite H
              | H : ?m !! ?k = _, H2 : context [?m !! ?k] |- _ => rewrite H in H2
              | H : ?c = true, H2 : context [?c] |- _ => rewrite H in H2
              | H : ?c = false, H2 : context [?c] |- _ => rewrite H in H2
              | H : ?c = true |- context [?c] => rewrite H
              | H : ?c = false |- context [?c] => rewrite H
              end).

(** Case on the first test met in a hypothesis. *)
Ltac split_if H :=
  match type of H with
  | context [if ?c then _ else _] => let E := fresh "E" in destruct c eqn:E
  | context [match ?l with [] => _ | _ :: _ => _ end] =>
      let E := fresh "E" in destruct l eqn:E
  end.

Ltac finish H := inversion H; subst; cbn; eauto 10.

(** ** Lemmas on the model *)

(** The three setters only issue calls on [m_attr]: they change nothing but
    the trace, and they either succeed or throw. *)
Lemma setter_frame (m : M unit) (os : os_model) (this : nat) (p : Properties)
    (w w' : world) (r : res unit) (t : thread) :
  (m = SetPolicy os this p \/ m = SetPriority os this p \/ m = SetAffinity os this p) ->
  m w = (r, w') ->
  w_objs w !! this = Some t ->
  w_objs w' = w_objs w /\ w_states w' = w_states w /\ w_threads w' = w_threads w /\
  (r = Ok tt \/ exists e, r = Throw e).
Proof.
  intros Hm Hr Ht.
  destruct Hm as [-> | [-> | ->]].
  - unfold SetPolicy, get_obj, native, throw in Hr.
    split_if Hr; run; [finish Hr|]. split_if Hr; run; finish Hr.
  - unfold SetPriority, native, throw in Hr.
    split_if Hr; run; [finish Hr|]. split_if Hr; run; finish Hr.
  - unfold SetAffinity, get_obj, native, throw in Hr. run.
    split_if Hr; run; [finish Hr|]. split_if Hr; run; [finish Hr|].
    split_if Hr; run; finish Hr.
Qed.

Lemma setter_trace (os : os_model) (this : nat) (p : Properties) (w w' : world)
    (t : thread) :
  w_objs w !! this = Some t -> m_properties t = p ->
  (SetPolicy os this p w = (Ok tt, w') -> w_trace w' = w_trace w ++ policy_calls p) /\
  (SetPriority os this p w = (Ok tt, w') -> w_trace w' = w_trace w ++ priority_calls p) /\
  (SetAffinity os this p w = (Ok tt, w') -> w_trace w' = w_trace w ++ affinity_calls p).
Proof.
  intros Ht <-. split; [|split]; intros Hr.
  - unfold SetPolicy, policy_calls, get_obj, native, throw in *.
    repeat (split_if Hr; run). all: inversion Hr; subst; by rewrite ?app_nil_r.
  - unfold SetPriority, priority_calls, native, throw, DEFAULT_PRIORITY, DEFAULT_POLICY in *.
    repeat (split_if Hr; run). all: inversion Hr; subst; by rewrite ?app_nil_r.
  - unfold SetAffinity, affinity_calls, get_obj, native, throw in *. run.
    repeat (split_if Hr; run). all: inversion Hr; subst; by rewrite ?app_nil_r.
Qed.

Ltac lookup_this :=
  repeat match goal with
         | H : w_objs ?x = _ |- context [w_objs ?x] => rewrite H
         end; apply lookup_insert_eq.

(** Step over one setter of the Properties constructor, in hypothesis [H]:
    it succeeded (a throw contradicts [H]), left the heaps alone and made
    the calls of [setter_trace]. *)
Ltac setter_step H :=
  match type of H with
  | context [let (_, _) := ?m ?w0 in _] =>
      match m with
      | ?F ?os ?this ?p =>
      let r := fresh "r" in let w' := fresh "w" in let E := fresh "E" in
      destruct (m w0) as [r w'] eqn:E;
      let O := fresh "O" in let S := fresh "S" in let T := fresh "T" in
      let e := fresh "e" in
      destruct (setter_frame m _ _ _ _ _ _ _
                 ltac:(first [left; reflexivity | right; left; reflexivity
                             | right; right; reflexivity])
                 E ltac:(lookup_this))
        as (O & S & T & [-> | [e ->]]); [|discriminate];
      let Tr := fresh "Tr" in
      pose proof (setter_trace os this p w0 w' _ ltac:(lookup_this) eq_refl) as Tr;
      let Tr1 := fresh "Tr" in let Tr2 := fresh "Tr" in let Tr3 := fresh "Tr" in
      destruct Tr as (Tr1 & Tr2 & Tr3);
      first [specialize (Tr1 E); clear Tr2 Tr3
            | specialize (Tr2 E); clear Tr1 Tr3
            | specialize (Tr3 E); clear Tr1 Tr2];
      cbn in H; rewrite ?O, ?S, ?T in *
      end
  end.

Lemma constructed_spawned (os : os_model) (this s : nat) (f : call_outcome)
    (w w1 : world) :
  constructed os this s f w w1 -> spawned_in this s (os_new_handle os) f w1.
Proof.
  intros [H | [props H]].
  - unfold thread_ctor, new_state, create_thread, put_state, put_obj, get_obj,
      native, add_thread in H. run.
    split_if H; run; [|discriminate].
    inversion H; subst. eexists. cbn. rewrite !lookup_insert_eq.
    repeat split; reflexivity.
  - unfold thread_ctor_props, new_state, put_state, put_obj, native in H. run.
    split_if H; run; [discriminate|].
    setter_step H. setter_step H. setter_step H.
    rewrite ?O1, ?O0, ?O, ?S1, ?S0, ?S, ?T1, ?T0, ?T in H.
    unfold create_thread, get_obj, native, add_thread in H. run.
    split_if H; run; [discriminate|].
    split_if H; run; try discriminate.
    inversion H; subst. eexists. cbn. rewrite !lookup_insert_eq.
    repeat split; reflexivity.
Qed.

Lemma spawned_run (this s : nat) (h : Z) (f : call_outcome) (w : world) :
  spawned_in this s h f w ->
  exists w2, run_thread h w = (Ok tt, w2) /\ ran_in this s h f w2.
Proof.
  intros (t & Ho & Hh & Hp & Hf & Hs & Ht).
  unfold run_thread, threadFuncWrapper, worker_lambda, try_catch, promise_set,
    get_obj, get_state, put_state, throw. run.
  destruct f; run; rewrite ?Hp; run;
    eexists; split; try reflexivity; exists t; cbn;
    rewrite ?lookup_insert_eq; repeat split; auto.
Qed.

Lemma ran_getResult (this s : nat) (h : Z) (f : call_outcome) (w : world) :
  ran_in this s h f w -> fst (getResult this w) = produced f.
Proof.
  intros (t & Ho & Hh & Hp & Hf & Hs).
  unfold getResult, get_obj, get_state, put_obj, throw. run.
  rewrite Hf. run. destruct f; reflexivity.
Qed.

Lemma ran_join (os : os_model) (this s : nat) (h : Z) (f : call_outcome) (w : world) :
  ran_in this s h f w ->
  fst (join os this w) =
    (if os_rc os (pthread_join_c h) =? 0 then Ok tt
     else Throw (RuntimeError "Failed to join thread:")) /\
  (os_rc os (pthread_join_c h) = 0 -> ran_in this s 0 f (snd (join os this w))).
Proof.
  intros (t & Ho & Hh & Hp & Hf & Hs). subst h.
  unfold join, get_obj, put_obj, native, throw. run.
  destruct (os_rc os (pthread_join_c (m_handle t)) =? 0) eqn:E; run.
  - split; [reflexivity|]. intros _. exists (set_handle t 0). cbn.
    rewrite lookup_insert_eq. repeat split; auto.
  - split; [reflexivity|]. intros Hz. rewrite Hz in E. discriminate.
Qed.


(** ** C1 and C2: the result channel *)

(** C1: whichever constructor spawned it, once the worker has run
    getResult returns the value the callable returned, wrapped in a
    [std::any], and an empty [std::any] for a void callable. *)
Theorem getResult_returns_value (os : os_model) (this s : nat) (f : call_outcome)
    (w w1 : world) :
  constructed os this s f w w1 -> (forall e, f <> throws e) ->
  fst (observe os this w1) =
    Ok (match f with returns v => any_of v | _ => any_empty end).
Proof.
  intros Hc Hf.
  destruct (spawned_run _ _ _ _ _ (constructed_spawned _ _ _ _ _ _ Hc))
    as (w2 & Hr & Hran).
  unfold observe. run. rewrite Hr.
  rewrite (ran_getResult _ _ _ _ _ Hran).
  destruct f as [|v|e]; [reflexivity|reflexivity|]. by destruct (Hf e).
Qed.

Lemma ctor_ignores_callable (os : os_model) (this s : nat) (f g : call_outcome)
    (w : world) :
  fst (thread_ctor os this s f w) = fst (thread_ctor os this s g w).
Proof.
  unfold thread_ctor, new_state, create_thread, put_state, put_obj, get_obj,
    native, add_thread, throw. run.
  destruct (os_rc os (pthread_create_c None) =? 0) eqn:E; run; reflexivity.
Qed.

Lemma ctor_props_ignores_callable (os : os_model) (this s : nat) (p : Properties)
    (f g : call_outcome) (w : world) :
  fst (thread_ctor_props os this s p f w) = fst (thread_ctor_props os this s p g w).
Proof.
  unfold thread_ctor_props, new_state, put_state, put_obj, native, throw. run.
  destruct (negb (os_rc os pthread_attr_init_c =? 0)); run; [reflexivity|].
  destruct (SetPolicy _ _ _ _) as [[] w2]; run; try reflexivity.
  destruct (SetPriority _ _ _ _) as [[] w3]; run; try reflexivity.
  destruct (SetAffinity _ _ _ _) as [[] w4]; run; try reflexivity.
  destruct (negb (os_rc os pthread_attr_setinheritsched_c =? 0)); run; [reflexivity|].
  unfold create_thread, get_obj, native, add_thread. run.
  destruct (os_rc os (pthread_create_c None) =? 0) eqn:E; run; [|reflexivity].
  destruct (w_objs w4 !! this) eqn:Ho; run; reflexivity.
Qed.

(** C2: an exception [e] thrown by the callable does not leave the worker
    thread, is not seen by the constructor (its outcome does not depend on
    what the callable does) nor by join (which reports only the native
    join), and getResult rethrows [e] itself, with or without a join
    first. *)
Theorem worker_exception_rethrown (os jos : os_model) (this s : nat)
    (e : exception) (w w1 : world) :
  constructed os this s (throws e) w w1 ->
  fst (thread_ctor os this s (throws e) w) = fst (thread_ctor os this s returns_void w) /\
  (forall p, fst (thread_ctor_props os this s p (throws e) w) =
             fst (thread_ctor_props os this s p returns_void w)) /\
  fst (run_thread (os_new_handle os) w1) = Ok tt /\
  fst ((run_thread (os_new_handle os);; join jos this) w1) =
    (if os_rc jos (pthread_join_c (os_new_handle os)) =? 0 then Ok tt
     else Throw (RuntimeError "Failed to join thread:")) /\
  fst (observe os this w1) = Throw (UserExn e) /\
  (os_rc jos (pthread_join_c (os_new_handle os)) = 0 ->
   fst ((run_thread (os_new_handle os);; join jos this;; getResult this) w1) =
     Throw (UserExn e)).
Proof.
  intros Hc.
  destruct (spawned_run _ _ _ _ _ (constructed_spawned _ _ _ _ _ _ Hc))
    as (w2 & Hr & Hran).
  destruct (ran_join jos _ _ _ _ _ Hran) as [Hj Hj'].
  split; [apply ctor_ignores_callable|].
  split; [intros; apply ctor_props_ignores_callable|].
  unfold observe. run. rewrite !Hr. run.
  split; [reflexivity|].
  split; [exact Hj|].
  split; [exact (ran_getResult _ _ _ _ _ Hran)|].
  intros Hz. specialize (Hj' Hz).
  destruct (join jos this w2) as [r w3] eqn:Ej. cbn in Hj, Hj'.
  rewrite Hz in Hj. cbn in Hj. subst r. run.
  exact (ran_getResult _ _ _ _ _ Hj').
Qed.

(** ** C3: attributes on the POSIX descriptor *)

(** C3 (as amended): a successful Properties constructor initialises
    [m_attr], sets the policy, then the priority, then the affinity on it
    (each only when it differs from the default), then the explicit
    inheritance, and only then calls [pthread_create]. *)
Theorem ctor_props_attr_order (os : os_model) (this s : nat) (p : Properties)
    (f : call_outcome) (w w1 : world) :
  thread_ctor_props os this s p f w = (Ok tt, w1) ->
  exists attr, w_trace w1 =
    w_trace w ++ [pthread_attr_init_c] ++ policy_calls p ++ priority_calls p ++
    affinity_calls p ++ [pthread_attr_setinheritsched_c; pthread_create_c attr].
Proof.
  intros H.
  unfold thread_ctor_props, new_state, put_state, put_obj, native in H. run.
  split_if H; run; [discriminate|].
  setter_step H. setter_step H. setter_step H.
  rewrite ?O1, ?O0, ?O, ?S1, ?S0, ?S, ?T1, ?T0, ?T in H.
  unfold create_thread, get_obj, native, add_thread in H. run.
  split_if H; run; [discriminate|].
  split_if H; run; try discriminate.
  inversion H; subst. exists None. cbn.
  repeat match goal with Hx : w_trace ?x = _ |- context [w_trace ?x] => rewrite Hx end.
  rewrite <- !app_assoc. reflexivity.
Qed.

(** ** C4: getResult consumes the future *)

Lemma ran_getResult_releases (this s : nat) (h : Z) (f : call_outcome) (w : world) :
  ran_in this s h f w -> fst (getResult this (snd (getResult this w))) = Throw (FutureError no_state).
Proof.
  intros (t & Ho & Hh & Hp & Hf & Hs).
  unfold getResult, get_obj, get_state, put_obj, throw. run.
  rewrite Hf. run. destruct f; run; reflexivity.
Qed.

(** C4 (as amended): once the worker has written its outcome, the first
    getResult returns (or rethrows) it and leaves the future without a
    shared state, so a second getResult does not return the outcome again:
    it throws [future_error(no_state)]. *)
Theorem getResult_single_shot (os : os_model) (this s : nat) (f : call_outcome)
    (w w1 : world) :
  constructed os this s f w w1 ->
  fst (observe os this w1) = produced f /\
  fst (getResult this (snd (observe os this w1))) = Throw (FutureError no_state).
Proof.
  intros Hc.
  destruct (spawned_run _ _ _ _ _ (constructed_spawned _ _ _ _ _ _ Hc))
    as (w2 & Hr & Hran).
  unfold observe. run. rewrite !Hr. run.
  split; [exact (ran_getResult _ _ _ _ _ Hran)|].
  exact (ran_getResult_releases _ _ _ _ _ Hran).
Qed.

(** ** C5: join on a handle without a thread *)

(** C5 (code defect): thread::join checks nothing.  On a handle that holds
    no thread ([m_handle = pthread_t()], as after default construction, a
    join, a detach or a move) it calls [pthread_join(pthread_t(), nullptr)]
    and reports only what that call returns, as a generic runtime_error or
    as success; the older OSCompatibleThread::Join answers the same misuse
    with FAILED_THREAD_NOT_INITIALIZED. *)
Theorem join_without_thread_unchecked (os : os_model) (this : nat) (t : thread)
    (w : world) :
  w_objs w !! this = Some t -> m_handle t = 0 ->
  w_trace (snd (join os this w)) = w_trace w ++ [pthread_join_c 0] /\
  fst (join os this w) =
    (if os_rc os (pthread_join_c 0) =? 0 then Ok tt
     else Throw (RuntimeError "Failed to join thread:")) /\
  fst (fst (OSCompatibleThread.Join os OSCompatibleThread.OSCT_default)) =
    OSCompatibleThread.FAILED_THREAD_NOT_INITIALIZED.
Proof.
  intros Ho Hh.
  unfold join, get_obj, put_obj, native, throw. run. rewrite Hh.
  destruct (os_rc os (pthread_join_c 0) =? 0) eqn:E; run; repeat split.
Qed.


(** ** C6: move assignment *)

(** C6: move-assigning [other] onto a distinct handle [this] whose thread
    is joinable first joins that thread (the only native call made), then
    [this] takes [other]'s thread handle, promise and future, and [other]
    is left without thread, promise or future. *)
Theorem move_assign_joins_then_adopts (os : os_model) (this other : nat)
    (t o : thread) (w : world) :
  this <> other ->
  w_objs w !! this = Some t -> w_objs w !! other = Some o ->
  joinable t = true -> os_rc os (pthread_join_c (m_handle t)) = 0 ->
  fst (move_assign os this other w) = Ok tt /\
  w_trace (snd (move_assign os this other w)) = w_trace w ++ [pthread_join_c (m_handle t)] /\
  w_objs (snd (move_assign os this other w)) !! this =
    Some (mk_thread (m_handle o) (m_initialized t) (m_promise o) (m_future o)
            (m_properties t)) /\
  exists o', w_objs (snd (move_assign os this other w)) !! other = Some o' /\
    joinable o' = false /\ m_promise o' = None /\ m_future o' = None.
Proof.
  intros Hne Ht Ho Hj Hrc.
  assert (Hb : Nat.eqb this other = false) by (apply Nat.eqb_neq; exact Hne).
  unfold move_assign, terminate_on_throw, join, get_obj, put_obj, native, throw.
  run. rewrite Hrc. run.
  rewrite lookup_insert_ne by congruence. rewrite Ho. run.
  rewrite !lookup_insert_ne by congruence. rewrite Ho. run.
  rewrite lookup_insert_ne by congruence. rewrite lookup_insert_eq.
  repeat split; try reflexivity.
  eexists; split; [reflexivity|]. repeat split.
Qed.

(** ** C7 and C9: the "all cores" shortcut of SetAffinity *)

Lemma flagged_from_length (i : nat) (l : list bool) :
  (length (flagged_from i l) <= length l)%nat /\
  (Nat.eqb (length (flagged_from i l)) (length l) = forallb (fun b => b) l).
Proof.
  revert i. induction l as [|b l IH]; intros i; cbn; [split; [lia|reflexivity]|].
  destruct (IH (S i)) as [Hle Heq].
  destruct b; cbn; [split; [lia|exact Heq]|].
  split; [lia|]. apply Nat.eqb_neq. lia.
Qed.

Lemma forallb_repeat_true (n : nat) : forallb (fun b => b) (repeat true n) = true.
Proof. induction n; cbn; auto. Qed.

(** SetAffinity reads [m_properties]: with every listed core flagged (or
    none listed) it returns at once. *)
Lemma SetAffinity_all_flagged (os : os_model) (this : nat) (p : Properties)
    (w : world) (t : thread) :
  w_objs w !! this = Some t -> forallb (fun b => b) (affinity (m_properties t)) = true ->
  SetAffinity os this p w = (Ok tt, w).
Proof.
  intros Ht Ha. unfold SetAffinity, get_obj, mbind, M_bind. rewrite Ht.
  destruct (affinity (m_properties t)) as [|b l] eqn:E; [reflexivity|].
  cbv zeta. rewrite (proj2 (flagged_from_length 0 (b :: l))), Ha. reflexivity.
Qed.

Local Opaque SetAffinity.

(** C7: an empty affinity vector and a vector with every core flagged
    behave the same: SetAffinity succeeds without any native call and
    without touching the world, and the Properties constructor makes the
    same calls with the same outcome for both. *)
Theorem affinity_empty_same_as_all_flagged (os : os_model) (this s : nat)
    (pr po : Z) (n : nat) (f : call_outcome) (w : world) :
  (forall (w0 : world) (t : thread) (p : Properties),
     w_objs w0 !! this = Some t ->
     affinity (m_properties t) = [] \/ affinity (m_properties t) = repeat true n ->
     SetAffinity os this p w0 = (Ok tt, w0)) /\
  fst (thread_ctor_props os this s (mk_Properties pr po []) f w) =
    fst (thread_ctor_props os this s (mk_Properties pr po (repeat true n)) f w) /\
  w_trace (snd (thread_ctor_props os this s (mk_Properties pr po []) f w)) =
    w_trace (snd (thread_ctor_props os this s (mk_Properties pr po (repeat true n)) f w)).
Proof.
  split.
  - intros w0 t p Ht Ha. apply (SetAffinity_all_flagged _ _ _ _ t Ht).
    destruct Ha as [-> | ->]; [reflexivity|apply forallb_repeat_true].
  - unfold thread_ctor_props, new_state, put_state, put_obj, native, throw,
      SetPolicy, SetPriority, create_thread, get_obj, add_thread. run.
    repeat (first
      [ match goal with |- context [SetAffinity ?o ?th ?p ?w0] =>
          rewrite (SetAffinity_all_flagged o th p w0 _
                     ltac:(cbn; rewrite lookup_insert_eq; reflexivity)
                     ltac:(cbn; first [reflexivity | apply forallb_repeat_true]))
        end
      | match goal with |- context [if ?c then _ else _] => destruct c end ]; run).
    all: split; reflexivity.
Qed.

Local Transparent SetAffinity.

(** C9: for a non-empty affinity vector SetAffinity skips the native call
    (and leaves the world as it was) exactly when every element of the
    vector is flagged: the count of flagged cores is compared with the
    vector's own length, whatever the number of cores of the machine;
    otherwise it asks for the flagged cores. *)
Theorem affinity_shortcut_own_length (os : os_model) (this : nat)
    (p : Properties) (w : world) (t : thread) :
  w_objs w !! this = Some t -> affinity (m_properties t) <> [] ->
  (SetAffinity os this p w = (Ok tt, w) <->
   forallb (fun b => b) (affinity (m_properties t)) = true) /\
  (forallb (fun b => b) (affinity (m_properties t)) = false ->
   w_trace (snd (SetAffinity os this p w)) =
     w_trace w ++ [pthread_attr_setaffinity_np_c (cpuset_of (affinity (m_properties t)))]).
Proof.
  intros Ht Hne.
  assert (Hcall : forallb (fun b => b) (affinity (m_properties t)) = false ->
     exists r, SetAffinity os this p w =
       (r, mk_world (w_objs w) (w_states w) (w_threads w)
             (w_trace w ++ [pthread_attr_setaffinity_np_c (cpuset_of (affinity (m_properties t)))]))).
  { intros Hf. unfold SetAffinity, get_obj, mbind, M_bind. rewrite Ht.
    destruct (affinity (m_properties t)) as [|b l] eqn:E; [congruence|].
    cbv zeta. rewrite (proj2 (flagged_from_length 0 (b :: l))), Hf.
    unfold native, throw, mret, M_ret.
    destruct (os_rc os _ =? 0); eexists; reflexivity. }
  split; [split|].
  - intros Hs. destruct (forallb (fun b => b) (affinity (m_properties t))) eqn:Hf;
      [reflexivity|].
    destruct (Hcall eq_refl) as [r Hr]. rewrite Hr in Hs. injection Hs as _ Hw.
    apply (f_equal (fun x => length (w_trace x))) in Hw. cbn in Hw. rewrite length_app in Hw. cbn in Hw. lia.
  - intros Hf. exact (SetAffinity_all_flagged _ _ _ _ _ Ht Hf).
  - intros Hf. destruct (Hcall Hf) as [r ->]. reflexivity.
Qed.

(** ** C8: no core flagged *)

Lemma flagged_from_repeat_false (i n : nat) : flagged_from i (repeat false n) = [].
Proof. revert i. induction n; intros i; cbn; auto. Qed.

(** C8 (code defect): SetAffinity has no "no core flagged" case.  With a
    non-empty affinity vector in which no core is flagged it calls
    [pthread_attr_setaffinity_np] with an empty CPU set, and its outcome is
    only that call's: success when the OS accepts it, a generic
    runtime_error otherwise.  The older OSCompatibleThread::SetCPUcores
    rejects the same vector with FAILED_NO_CPU_CORES_FLAGGED, and an
    empty vector is accepted by SetAffinity without any call. *)
Theorem affinity_none_flagged_not_rejected (os : os_model) (this : nat)
    (p : Properties) (w : world) (t : thread) (n : nat) :
  w_objs w !! this = Some t -> affinity (m_properties t) = repeat false (S n) ->
  SetAffinity os this p w =
    ((if os_rc os (pthread_attr_setaffinity_np_c []) =? 0 then Ok tt
      else Throw (RuntimeError "Failed to set thread affinity(CPU cores): ")),
     mk_world (w_objs w) (w_states w) (w_threads w)
       (w_trace w ++ [pthread_attr_setaffinity_np_c []])) /\
  fst (OSCompatibleThread.SetCPUcores os (repeat false (S n))) =
    OSCompatibleThread.FAILED_NO_CPU_CORES_FLAGGED /\
  (forall t0 : thread, w_objs w !! this = Some t0 -> affinity (m_properties t0) = [] ->
   SetAffinity os this p w = (Ok tt, w)).
Proof.
  intros Ht Ha. split; [|split].
  - unfold SetAffinity, get_obj, native, throw. run. rewrite Ha. cbn.
    rewrite flagged_from_repeat_false. cbn.
    destruct (os_rc os (pthread_attr_setaffinity_np_c []) =? 0); reflexivity.
  - unfold OSCompatibleThread.SetCPUcores. cbn.
    rewrite flagged_from_repeat_false. reflexivity.
  - intros t0 Ht0 He. apply (SetAffinity_all_flagged _ _ _ _ t0 Ht0). rewrite He. reflexivity.
Qed.

(** ** C10: moving a thread whose worker has not run *)

(** C10 (code defect): the worker lambda captured [this] of the object
    that spawned it, not its promise.  Move-construct at [this] from
    [other] before the worker has run: getResult on the moved-from
    [other] throws [future_error(no_state)] at once, but the worker, when
    it runs, reaches the promise through [other], which no longer holds
    one (a null shared_ptr dereference), so the shared state stays
    pending and getResult on the move target [this] waits for it. *)
Theorem move_leaves_worker_on_source (os : os_model) (this other s : nat)
    (f : call_outcome) (w w1 : world) (junk_init : bool) (junk_props : Properties) :
  this <> other -> constructed os other s f w w1 ->
  fst (getResult other (snd (move_ctor this other junk_init junk_props w1))) =
    Throw (FutureError no_state) /\
  fst (getResult this (snd (move_ctor this other junk_init junk_props w1))) = Block /\
  fst (run_thread (os_new_handle os) (snd (move_ctor this other junk_init junk_props w1))) =
    Crash "null shared_ptr<promise> dereferenced" /\
  w_states (snd (run_thread (os_new_handle os)
                   (snd (move_ctor this other junk_init junk_props w1)))) !! s =
    Some pending.
Proof.
  intros Hne Hc.
  destruct (constructed_spawned _ _ _ _ _ _ Hc) as (t & Ho & Hh & Hp & Hf & Hs & Ht).
  unfold move_ctor, getResult, run_thread, threadFuncWrapper, worker_lambda,
    try_catch, promise_set, get_obj, put_obj, get_state, throw, crash. run.
  rewrite lookup_insert_ne by congruence. rewrite lookup_insert_eq. run.
  rewrite Hf. run.
  destruct f; run; repeat split; reflexivity.
Qed.

(** ** The older class OSCompatibleThread: Init and Join *)

Ltac split_rcs H :=
  repeat match type of H with
         | context [if ?c then _ else _] =>
             let E := fresh "E" in destruct c eqn:E; cbn in H
         end.

Ltac unfold_OSCT :=
  unfold OSCompatibleThread.Init, OSCompatibleThread.SetPolicy,
    OSCompatibleThread.SetPriority, OSCompatibleThread.SetCPUcores,
    OSCompatibleThread.init_calls, OSCompatibleThread.Join,
    OSCompatibleThread.FreeNDestroy in *.

Lemma OSCT_Init_success_inv (os : os_model) (this : nat) (t t' : OSCompatibleThread.OSCT)
    (priority policy : Z) (cores : list bool) (tr : list native_call) :
  OSCompatibleThread.Init os this t priority policy cores =
    (OSCompatibleThread.SUCCESS, t', tr) ->
  OSCompatibleThread.m_isInitialized t = false /\ flagged_from 0 cores <> [] /\
  Forall (fun c => os_rc os c = 0) (OSCompatibleThread.init_calls this priority policy cores) /\
  t' = OSCompatibleThread.mk_OSCT (os_new_handle os) true /\
  tr = OSCompatibleThread.init_calls this priority policy cores.
Proof.
  unfold_OSCT. intros H. split_rcs H; try discriminate.
  inversion H; subst.
  apply negb_false_iff in E0, E1, E2, E3, E5, E6.
  apply Z.eqb_eq in E0, E1, E2, E3, E5, E6.
  apply Nat.eqb_neq in E4.
  split; [reflexivity|]. split; [intros Hf; rewrite Hf in E4; cbn in E4; lia|].
  split; [repeat constructor; assumption|]. split; reflexivity.
Qed.

(** Init succeeds exactly when the object is not initialised yet, at least
    one core is flagged and every call it makes succeeds: it then has
    initialised the attributes, set explicit inheritance, the policy, the
    priority (both always, whatever their value) and the affinity on them,
    and created the thread with [&m_attributes]; the object holds the new
    thread and is initialised. *)
Theorem OSCT_Init_success_iff (os : os_model) (this : nat) (t t' : OSCompatibleThread.OSCT)
    (priority policy : Z) (cores : list bool) (tr : list native_call) :
  OSCompatibleThread.Init os this t priority policy cores =
    (OSCompatibleThread.SUCCESS, t', tr) <->
  OSCompatibleThread.m_isInitialized t = false /\ flagged_from 0 cores <> [] /\
  Forall (fun c => os_rc os c = 0) (OSCompatibleThread.init_calls this priority policy cores) /\
  t' = OSCompatibleThread.mk_OSCT (os_new_handle os) true /\
  tr = OSCompatibleThread.init_calls this priority policy cores.
Proof.
  split; [apply OSCT_Init_success_inv|]. unfold_OSCT.
  intros (Hi & Hf & Hall & -> & ->). rewrite Hi.
  inversion Hall as [|? ? H0 Hall0]; subst.
  inversion Hall0 as [|? ? H1 Hall1]; subst.
  inversion Hall1 as [|? ? H2 Hall2]; subst.
  inversion Hall2 as [|? ? H3 Hall3]; subst.
  inversion Hall3 as [|? ? H4 Hall4]; subst.
  inversion Hall4 as [|? ? H5 _]; subst.
  rewrite H0, H1, H2, H3, H4, H5. cbn.
  destruct (Nat.eqb (length (flagged_from 0 cores)) 0) eqn:E.
  + apply Nat.eqb_eq, length_zero_iff_nil in E. contradiction.
  + reflexivity.
Qed.


(** With no core flagged (an empty vector included) Init never creates a
    thread and never succeeds; once the steps before the affinity have
    succeeded it reports FAILED_SET_CPU_CORES (the FAILED_NO_CPU_CORES_FLAGGED
    of SetCPUcores is not passed on). *)
Theorem OSCT_Init_no_cores (os : os_model) (this : nat) (t : OSCompatibleThread.OSCT)
    (priority policy : Z) (cores : list bool) :
  flagged_from 0 cores = [] ->
  let '(r, t', tr) := OSCompatibleThread.Init os this t priority policy cores in
  r <> OSCompatibleThread.SUCCESS /\ t' = t /\
  ~ In (pthread_create_c (Some this)) tr /\
  (OSCompatibleThread.m_isInitialized t = false ->
   Forall (fun c => os_rc os c = 0)
     [pthread_attr_init_c; pthread_attr_setinheritsched_c;
      pthread_attr_setschedpolicy_c policy; pthread_attr_setschedparam_c priority] ->
   r = OSCompatibleThread.FAILED_SET_CPU_CORES).
Proof.
  intros Hc. unfold_OSCT. rewrite Hc. cbn.
  destruct (OSCompatibleThread.m_isInitialized t) eqn:Hi; cbn.
  - repeat split; [discriminate | tauto | discriminate].
  - repeat match goal with |- context [if ?c then _ else _] =>
             let E := fresh "E" in destruct c eqn:E; cbn end;
    (split; [discriminate|]; split; [reflexivity|]; split;
       [cbn; intuition discriminate|]);
    intros _ Hall; try reflexivity;
    repeat match goal with
           | E : negb (?x =? 0) = true |- _ =>
               apply negb_true_iff, Z.eqb_neq in E
           end;
    inversion Hall as [|? ? H0 Hall0]; subst;
    inversion Hall0 as [|? ? H1 Hall1]; subst;
    inversion Hall1 as [|? ? H2 Hall2]; subst;
    inversion Hall2 as [|? ? H3 _]; subst; congruence.
Qed.

(** Init, then Join: an initialised object refuses a second Init without
    any call; joining it (pthread_join on its thread, then
    pthread_attr_destroy) brings it back to the default-constructed
    object.  When pthread_attr_destroy fails, Join reports
    FAILED_FREE_RESOURCES and the object stays initialised with the thread
    it has already joined. *)
Theorem OSCT_Init_Join_roundtrip (os jos os2 : os_model) (this this2 : nat)
    (t t' : OSCompatibleThread.OSCT) (priority policy priority2 policy2 : Z)
    (cores cores2 : list bool) (tr : list native_call) :
  OSCompatibleThread.Init os this t priority policy cores =
    (OSCompatibleThread.SUCCESS, t', tr) ->
  OSCompatibleThread.Init os2 this2 t' priority2 policy2 cores2 =
    (OSCompatibleThread.FAILED_THREAD_ALREADY_INITIALIZED, t', []) /\
  (os_rc jos (pthread_join_c (os_new_handle os)) = 0 ->
   os_rc jos pthread_attr_destroy_c = 0 ->
   OSCompatibleThread.Join jos t' =
     (OSCompatibleThread.SUCCESS, OSCompatibleThread.OSCT_default,
      [pthread_join_c (os_new_handle os); pthread_attr_destroy_c])) /\
  (os_rc jos (pthread_join_c (os_new_handle os)) = 0 ->
   os_rc jos pthread_attr_destroy_c <> 0 ->
   OSCompatibleThread.Join jos t' =
     (OSCompatibleThread.FAILED_FREE_RESOURCES, t',
      [pthread_join_c (os_new_handle os); pthread_attr_destroy_c])).
Proof.
  intros H. destruct (OSCT_Init_success_inv _ _ _ _ _ _ _ _ H) as (Hi & _ & _ & -> & _).
  split; [reflexivity|]. split.
  - intros Hj Hd. unfold OSCompatibleThread.Join, OSCompatibleThread.FreeNDestroy.
    cbn. rewrite Hj, Hd. reflexivity.
  - intros Hj Hd. unfold OSCompatibleThread.Join, OSCompatibleThread.FreeNDestroy.
    cbn. rewrite Hj. cbn.
    apply Z.eqb_neq in Hd. rewrite Hd. reflexivity.
Qed.

(** ** The thread class: lifecycle *)

(** thread::join and thread::detach: when the native call succeeds the
    handle is reset, so the object is no longer joinable, and nothing else
    of it changes (its promise and future stay); when it fails they throw a
    runtime_error and leave the object as it was. *)
Theorem join_detach_reset_handle (os : os_model) (this : nat) (t : thread) (w : world) :
  w_objs w !! this = Some t ->
  (forall (m : M unit) (c : native_call) (msg : string),
     (m = join os this /\ c = pthread_join_c (m_handle t) /\ msg = "Failed to join thread:") \/
     (m = detach os this /\ c = pthread_detach_c (m_handle t) /\ msg = "Failed to detach thread") ->
     w_trace (snd (m w)) = w_trace w ++ [c] /\
     w_states (snd (m w)) = w_states w /\ w_threads (snd (m w)) = w_threads w /\
     (os_rc os c = 0 ->
      fst (m w) = Ok tt /\
      w_objs (snd (m w)) !! this = Some (set_handle t 0) /\
      joinable (set_handle t 0) = false) /\
     (os_rc os c <> 0 ->
      fst (m w) = Throw (RuntimeError msg) /\ w_objs (snd (m w)) = w_objs w)).
Proof.
  intros Ht m c msg Hm.
  destruct Hm as [(-> & -> & ->) | (-> & -> & ->)];
    unfold join, detach, get_obj, put_obj, native, throw; run;
    (destruct (os_rc os _ =? 0) eqn:E; run;
     [apply Z.eqb_eq in E | apply Z.eqb_neq in E];
     do 3 (split; [reflexivity|]);
     split; intros Hc; first [repeat split; reflexivity | contradiction]).
Qed.

(** Detaching a running thread does not lose its result: once the worker
    has run, getResult returns (or rethrows) what the callable produced. *)
Theorem detach_keeps_result (os dos : os_model) (this s : nat) (f : call_outcome)
    (w w1 : world) :
  constructed os this s f w w1 ->
  os_rc dos (pthread_detach_c (os_new_handle os)) = 0 ->
  fst ((detach dos this;; run_thread (os_new_handle os);; getResult this) w1) =
    produced f.
Proof.
  intros Hc Hd.
  destruct (constructed_spawned _ _ _ _ _ _ Hc) as (t & Ho & Hh & Hp & Hf & Hs & Ht).
  unfold detach, run_thread, threadFuncWrapper, worker_lambda, try_catch, promise_set,
    getResult, get_obj, put_obj, get_state, put_state, native, throw. run.
  rewrite Hh, Hd. run.
  destruct f; do 4 (run; rewrite ?Hp, ?Hf); reflexivity.
Qed.

(** A default-constructed thread makes no native call, spawns no thread
    and is not joinable; its promise is never set, so getResult waits
    forever. *)
Theorem default_ctor_idle (this s : nat) (junk_init : bool) (w : world) :
  fst (thread_default_ctor this s junk_init w) = Ok tt /\
  w_trace (snd (thread_default_ctor this s junk_init w)) = w_trace w /\
  w_threads (snd (thread_default_ctor this s junk_init w)) = w_threads w /\
  (exists t, w_objs (snd (thread_default_ctor this s junk_init w)) !! this = Some t /\
     joinable t = false) /\
  fst (getResult this (snd (thread_default_ctor this s junk_init w))) = Block.
Proof.
  unfold thread_default_ctor, new_state, getResult, get_obj, put_obj, get_state,
    put_state. run. repeat split; try reflexivity.
  eexists; split; reflexivity.
Qed.

(** thread::thread(Function&&, Args&&...) makes one native call,
    [pthread_create] with a null attribute pointer.  When it fails the
    constructor throws runtime_error("Failed to create thread :") and no
    thread runs; when it succeeds the object holds the new thread id and
    is initialised. *)
Theorem ctor_outcome (os : os_model) (this s : nat) (f : call_outcome) (w : world) :
  w_trace (snd (thread_ctor os this s f w)) = w_trace w ++ [pthread_create_c None] /\
  (os_rc os (pthread_create_c None) <> 0 ->
   fst (thread_ctor os this s f w) = Throw (RuntimeError "Failed to create thread :") /\
   w_threads (snd (thread_ctor os this s f w)) = w_threads w) /\
  (os_rc os (pthread_create_c None) = 0 ->
   fst (thread_ctor os this s f w) = Ok tt /\
   w_objs (snd (thread_ctor os this s f w)) !! this =
     Some (mk_thread (os_new_handle os) true (Some s) (Some s) DEFAULT_PROPERTIES)).
Proof.
  unfold thread_ctor, new_state, create_thread, put_state, put_obj, get_obj,
    native, add_thread, throw. run.
  destruct (os_rc os (pthread_create_c None) =? 0) eqn:E; run.
  1: apply Z.eqb_eq in E. 2: apply Z.eqb_neq in E.
  all: split; [reflexivity|];
    split; intros Hc; first [repeat split; reflexivity | contradiction].
Qed.

(** The Properties constructor never destroys [m_attr] (no
    pthread_attr_destroy on any path) and makes at most one pthread_create;
    when it throws, no thread has been spawned. *)
Theorem ctor_props_no_destroy (os : os_model) (this s : nat) (p : Properties)
    (f : call_outcome) (w : world) :
  exists tr,
    w_trace (snd (thread_ctor_props os this s p f w)) = w_trace w ++ tr /\
    ~ In pthread_attr_destroy_c tr /\
    (fst (thread_ctor_props os this s p f w) <> Ok tt ->
     w_threads (snd (thread_ctor_props os this s p f w)) = w_threads w).
Proof.
  unfold thread_ctor_props, new_state, put_state, put_obj, native, throw,
    SetPolicy, SetPriority, SetAffinity, create_thread, get_obj, add_thread. run.
  repeat (match goal with
          | |- context [if ?c then _ else _] => let E := fresh "E" in destruct c eqn:E
          | |- context [match ?l with [] => _ | _ :: _ => _ end] => destruct l
          end; run);
  rewrite <- ?app_assoc; eexists; (split; [reflexivity|]);
  (split; [cbn; intuition discriminate|]);
  intros Hn; first [reflexivity | contradiction].
Qed.

(** ** The thread class: moves *)

(** thread::operator=(thread&&): self-assignment changes nothing and makes
    no call; onto a target that is not joinable it makes no native call;
    onto a joinable target whose join fails, the exception cannot leave the
    noexcept operator and the program terminates. *)
Theorem move_assign_edges (os : os_model) (this other : nat) (t o : thread) (w : world) :
  move_assign os this this w = (Ok tt, w) /\
  (this <> other -> w_objs w !! this = Some t -> w_objs w !! other = Some o ->
   joinable t = false ->
   fst (move_assign os this other w) = Ok tt /\
   w_trace (snd (move_assign os this other w)) = w_trace w) /\
  (this <> other -> w_objs w !! this = Some t -> joinable t = true ->
   os_rc os (pthread_join_c (m_handle t)) <> 0 ->
   fst (move_assign os this other w) = Crash "std::terminate").
Proof.
  split; [|split].
  - unfold move_assign, terminate_on_throw. rewrite Nat.eqb_refl. reflexivity.
  - intros Hne Ht Ho Hj.
    assert (Hb : Nat.eqb this other = false) by (apply Nat.eqb_neq; exact Hne).
    unfold move_assign, terminate_on_throw, get_obj, put_obj. run.
    rewrite lookup_insert_ne by congruence. rewrite Ho. run.
    split; reflexivity.
  - intros Hne Ht Hj Hrc.
    assert (Hb : Nat.eqb this other = false) by (apply Nat.eqb_neq; exact Hne).
    apply Z.eqb_neq in Hrc.
    unfold move_assign, terminate_on_throw, join, get_obj, put_obj, native, throw. run.
    reflexivity.
Qed.

(** Moving a running thread out and back (construct [u] from [t], then
    move-assign [u] back to [t]) makes no native call and gives [t] back
    exactly the object it was (handle, promise, future and the rest), while
    [u] is left not joinable, without promise or future; the worker, which
    captured [t], then delivers its outcome to [t]'s getResult. *)
Theorem move_out_and_back (os : os_model) (this other s : nat) (f : call_outcome)
    (w w1 : world) (junk_init : bool) (junk_props : Properties) :
  this <> other -> constructed os other s f w w1 ->
  w_trace (snd ((move_ctor this other junk_init junk_props;; move_assign os other this) w1)) =
    w_trace w1 /\
  w_objs (snd ((move_ctor this other junk_init junk_props;; move_assign os other this) w1))
    !! other = w_objs w1 !! other /\
  (exists u, w_objs (snd ((move_ctor this other junk_init junk_props;;
                           move_assign os other this) w1)) !! this = Some u /\
     joinable u = false /\ m_promise u = None /\ m_future u = None) /\
  fst ((move_ctor this other junk_init junk_props;; move_assign os other this;;
        run_thread (os_new_handle os);; getResult other) w1) = produced f.
Proof.
  intros Hne Hc.
  destruct (constructed_spawned _ _ _ _ _ _ Hc) as (t & Ho & Hh & Hp & Hf & Hs & Ht).
  assert (Hb : Nat.eqb other this = false) by (apply Nat.eqb_neq; congruence).
  unfold move_ctor, move_assign, terminate_on_throw, run_thread, threadFuncWrapper,
    worker_lambda, try_catch, promise_set, getResult, get_obj, put_obj, get_state,
    put_state, throw. run.
  repeat (first [rewrite lookup_insert_eq | rewrite lookup_insert_ne by congruence]; run).
  split; [reflexivity|]. split.
  { rewrite ?Ho. destruct t; cbn in *; subst; reflexivity. }
  split.
  { eexists; split; [reflexivity|]. repeat split. }
  destruct f; do 6 (run; rewrite ?Hp, ?Hf;
    repeat (first [rewrite lookup_insert_eq | rewrite lookup_insert_ne by congruence]; run));
    reflexivity.
Qed.

(** ** Cores past CPU_SETSIZE *)

Lemma filter_below_nil (n : nat) (l : list nat) :
  (forall i, In i l -> (n <= i)%nat) -> filter (fun i => (i < n)%nat) l = [].
Proof.
  induction l as [|i l IH]; intros H; [reflexivity|].
  rewrite filter_cons. case_decide as Hi.
  - specialize (H i (or_introl eq_refl)). lia.
  - apply IH. intros j Hj. apply H. right. exact Hj.
Qed.

(** A vector whose flagged cores all lie at index CPU_SETSIZE (1024) or
    beyond passes the "no core flagged" check of SetCPUcores, and both
    SetCPUcores and thread::SetAffinity (when not every element is flagged)
    then ask pthread_attr_setaffinity_np for an empty CPU set: CPU_SET
    ignores those cores. *)
Theorem cores_past_setsize_dropped (os : os_model) (cores : list bool) :
  flagged_from 0 cores <> [] ->
  (forall i, In i (flagged_from 0 cores) -> (CPU_SETSIZE <= i)%nat) ->
  OSCompatibleThread.SetCPUcores os cores =
    (if os_rc os (pthread_attr_setaffinity_np_c []) =? 0
     then OSCompatibleThread.SUCCESS else OSCompatibleThread.FAILED_SET_CPU_CORES,
     [pthread_attr_setaffinity_np_c []]) /\
  (forall (this : nat) (p : Properties) (w : world) (t : thread),
     w_objs w !! this = Some t -> affinity (m_properties t) = cores ->
     forallb (fun b => b) cores = false ->
     w_trace (snd (SetAffinity os this p w)) =
       w_trace w ++ [pthread_attr_setaffinity_np_c []]).
Proof.
  intros Hne Hge.
  assert (Hc : cpuset_of cores = []) by (apply filter_below_nil; exact Hge).
  split.
  - unfold OSCompatibleThread.SetCPUcores. cbv zeta. rewrite Hc.
    destruct (Nat.eqb (length (flagged_from 0 cores)) 0) eqn:E.
    + apply Nat.eqb_eq, length_zero_iff_nil in E. contradiction.
    + destruct (os_rc os (pthread_attr_setaffinity_np_c []) =? 0); reflexivity.
  - intros this p w t Ht Ha Hf.
    unfold SetAffinity, get_obj, mbind, M_bind. rewrite Ht. cbv beta iota zeta.
    rewrite Ha. destruct cores as [|b l] eqn:E; [contradiction|].
    rewrite (proj2 (flagged_from_length 0 (b :: l))), Hf, Hc.
    unfold native, throw, mret, M_ret.
    destruct (os_rc os _ =? 0); reflexivity.
Qed.

End Theory.

Module Witnesses.
Import OSCompatible Theory.

Lemma getResult_returns_value_witness :
  constructed os_ok 1%nat 2%nat (returns (VInt 7)) w_empty
    (snd (thread_ctor os_ok 1%nat 2%nat (returns (VInt 7)) w_empty)) /\
  fst (observe os_ok 1%nat (snd (thread_ctor os_ok 1%nat 2%nat (returns (VInt 7)) w_empty))) =
    Ok (any_of (VInt 7)).
Proof.
  assert (Hc : constructed os_ok 1%nat 2%nat (returns (VInt 7)) w_empty
                 (snd (thread_ctor os_ok 1%nat 2%nat (returns (VInt 7)) w_empty)))
    by (left; reflexivity).
  split; [exact Hc|].
  exact (getResult_returns_value os_ok 1%nat 2%nat (returns (VInt 7)) w_empty _ Hc
           (fun e H => ltac:(discriminate H))).
Defined.

Lemma worker_exception_rethrown_witness :
  let e := mk_exception "std::logic_error" "boom" in
  let f := throws e in
  let w1 := snd (thread_ctor_props os_ok 1%nat 2%nat
                   (mk_Properties 10 1 [true; false]) f w_empty) in
  constructed os_ok 1%nat 2%nat f w_empty w1 /\
  fst (observe os_ok 1%nat w1) = Throw (UserExn e).
Proof.
  intros e f w1.
  assert (Hc : constructed os_ok 1%nat 2%nat f w_empty w1)
    by (right; exists (mk_Properties 10 1 [true; false]); reflexivity).
  split; [exact Hc|].
  exact (proj1 (proj2 (proj2 (proj2 (proj2
           (worker_exception_rethrown os_ok os_ok 1%nat 2%nat e w_empty w1 Hc)))))).
Defined.

Lemma ctor_props_attr_order_witness :
  let p := mk_Properties 10 1 [true; false] in
  thread_ctor_props os_ok 1%nat 2%nat p returns_void w_empty =
    (Ok tt, snd (thread_ctor_props os_ok 1%nat 2%nat p returns_void w_empty)) /\
  exists attr,
    w_trace (snd (thread_ctor_props os_ok 1%nat 2%nat p returns_void w_empty)) =
    w_trace w_empty ++ [pthread_attr_init_c] ++ policy_calls p ++ priority_calls p ++
    affinity_calls p ++ [pthread_attr_setinheritsched_c; pthread_create_c attr].
Proof.
  intros p.
  assert (H : thread_ctor_props os_ok 1%nat 2%nat p returns_void w_empty =
    (Ok tt, snd (thread_ctor_props os_ok 1%nat 2%nat p returns_void w_empty)))
    by reflexivity.
  split; [exact H|].
  exact (ctor_props_attr_order os_ok 1%nat 2%nat p returns_void w_empty _ H).
Defined.

Lemma getResult_single_shot_witness :
  let w1 := snd (thread_ctor os_ok 1%nat 2%nat (returns (VInt 7)) w_empty) in
  constructed os_ok 1%nat 2%nat (returns (VInt 7)) w_empty w1 /\
  fst (getResult 1%nat (snd (observe os_ok 1%nat w1))) = Throw (FutureError no_state).
Proof.
  intros w1.
  assert (Hc : constructed os_ok 1%nat 2%nat (returns (VInt 7)) w_empty w1)
    by (left; reflexivity).
  split; [exact Hc|].
  exact (proj2 (getResult_single_shot os_ok 1%nat 2%nat _ w_empty w1 Hc)).
Defined.

(** A default-constructed [OSCompatible::thread t; t.join();]. *)
Lemma join_without_thread_unchecked_witness :
  let w1 := snd (thread_default_ctor 1%nat 2%nat false w_empty) in
  w_objs w1 !! 1%nat = Some (mk_thread 0 false (Some 2%nat) (Some 2%nat) DEFAULT_PROPERTIES) /\
  fst (join os_ok 1%nat w1) = Ok tt.
Proof.
  intros w1.
  assert (Ho : w_objs w1 !! 1%nat =
                 Some (mk_thread 0 false (Some 2%nat) (Some 2%nat) DEFAULT_PROPERTIES))
    by reflexivity.
  split; [exact Ho|].
  exact (proj1 (proj2 (join_without_thread_unchecked os_ok 1%nat _ w1 Ho eq_refl))).
Defined.

(** [t2 = std::move(t1)] on two running threads: thread 7 at 1 and
    thread 9 at 3. *)
Lemma move_assign_joins_then_adopts_witness :
  let w := snd (thread_ctor (mk_os (fun _ => 0) 9) 3%nat 4%nat returns_void
                  (snd (thread_ctor os_ok 1%nat 2%nat (returns (VInt 7)) w_empty))) in
  w_objs w !! 1%nat = Some (mk_thread 7 true (Some 2%nat) (Some 2%nat) DEFAULT_PROPERTIES) /\
  w_objs w !! 3%nat = Some (mk_thread 9 true (Some 4%nat) (Some 4%nat) DEFAULT_PROPERTIES) /\
  w_trace (snd (move_assign os_ok 1%nat 3%nat w)) = w_trace w ++ [pthread_join_c 7].
Proof.
  intros w.
  assert (Ht : w_objs w !! 1%nat =
                 Some (mk_thread 7 true (Some 2%nat) (Some 2%nat) DEFAULT_PROPERTIES))
    by reflexivity.
  assert (Ho : w_objs w !! 3%nat =
                 Some (mk_thread 9 true (Some 4%nat) (Some 4%nat) DEFAULT_PROPERTIES))
    by reflexivity.
  split; [exact Ht|]. split; [exact Ho|].
  exact (proj1 (proj2 (move_assign_joins_then_adopts os_ok 1%nat 3%nat _ _ w
           ltac:(discriminate) Ht Ho eq_refl eq_refl))).
Defined.

Lemma affinity_empty_same_as_all_flagged_witness :
  let t := mk_thread 7 true (Some 2%nat) (Some 2%nat) (mk_Properties 255 255 [true; true]) in
  let w := mk_world (<[1%nat := t]> ∅) ∅ ∅ [] in
  SetAffinity os_ok 1%nat (m_properties t) w = (Ok tt, w).
Proof.
  intros t w.
  exact (proj1 (affinity_empty_same_as_all_flagged os_ok 1%nat 2%nat 255 255 2
                  returns_void w_empty) w t (m_properties t) eq_refl (or_intror eq_refl)).
Defined.

(** 2000 cores flagged, more than a cpu_set_t holds: no call. *)
Lemma affinity_shortcut_own_length_witness :
  let t := mk_thread 0 false (Some 2%nat) (Some 2%nat)
             (mk_Properties 255 255 (repeat true 2000)) in
  let w := mk_world (<[1%nat := t]> ∅) ∅ ∅ [] in
  SetAffinity os_ok 1%nat (m_properties t) w = (Ok tt, w).
Proof.
  intros t w.
  exact (proj2 (proj1 (affinity_shortcut_own_length os_ok 1%nat (m_properties t) w t
                         eq_refl ltac:(discriminate))) eq_refl).
Defined.

(** Properties{255, 255, {false, false}} on an OS that accepts the empty
    CPU set: the constructor succeeds. *)
Lemma affinity_none_flagged_not_rejected_witness :
  let p := mk_Properties 255 255 [false; false] in
  let w := snd (thread_ctor_props os_ok 1%nat 2%nat p returns_void w_empty) in
  fst (thread_ctor_props os_ok 1%nat 2%nat p returns_void w_empty) = Ok tt /\
  w_objs w !! 1%nat = Some (mk_thread 7 true (Some 2%nat) (Some 2%nat) p) /\
  fst (SetAffinity os_ok 1%nat p w) = Ok tt.
Proof.
  intros p w.
  assert (Ht : w_objs w !! 1%nat = Some (mk_thread 7 true (Some 2%nat) (Some 2%nat) p))
    by reflexivity.
  split; [reflexivity|]. split; [exact Ht|].
  rewrite (proj1 (affinity_none_flagged_not_rejected os_ok 1%nat p w _ 1 Ht eq_refl)).
  reflexivity.
Defined.

(** [OSCompatible::thread t(f); OSCompatible::thread u(std::move(t));]
    with [t] at 1 and [u] at 3, before the worker runs. *)
Lemma move_leaves_worker_on_source_witness :
  let f := returns (VInt 7) in
  let w1 := snd (thread_ctor os_ok 1%nat 2%nat f w_empty) in
  constructed os_ok 1%nat 2%nat f w_empty w1 /\
  fst (run_thread 7 (snd (move_ctor 3%nat 1%nat false DEFAULT_PROPERTIES w1))) =
    Crash "null shared_ptr<promise> dereferenced".
Proof.
  intros f w1.
  assert (Hc : constructed os_ok 1%nat 2%nat f w_empty w1) by (left; reflexivity).
  split; [exact Hc|].
  exact (proj1 (proj2 (proj2 (move_leaves_worker_on_source os_ok 3%nat 1%nat 2%nat f
           w_empty w1 false DEFAULT_PROPERTIES ltac:(discriminate) Hc)))).
Defined.

(** The test program's call: four cores flagged, every call succeeding. *)
Lemma OSCT_Init_success_iff_witness :
  OSCompatibleThread.Init os_ok 1%nat OSCompatibleThread.OSCT_default 99 1
    [true; true; true; true] =
  (OSCompatibleThread.SUCCESS, OSCompatibleThread.mk_OSCT 7 true,
   OSCompatibleThread.init_calls 1%nat 99 1 [true; true; true; true]).
Proof.
  apply (proj2 (OSCT_Init_success_iff os_ok 1%nat OSCompatibleThread.OSCT_default _ 99 1
                  [true; true; true; true] _)).
  split; [reflexivity|]. split; [discriminate|].
  split; [repeat constructor|]. split; reflexivity.
Defined.


Lemma OSCT_Init_no_cores_witness :
  fst (fst (OSCompatibleThread.Init os_ok 1%nat OSCompatibleThread.OSCT_default 99 1
              [false; false])) = OSCompatibleThread.FAILED_SET_CPU_CORES.
Proof.
  pose proof (OSCT_Init_no_cores os_ok 1%nat OSCompatibleThread.OSCT_default 99 1
                [false; false] eq_refl) as H.
  destruct (OSCompatibleThread.Init _ _ _ _ _ _) as [[r t'] tr].
  destruct H as (_ & _ & _ & H). exact (H eq_refl ltac:(repeat constructor)).
Defined.

Lemma OSCT_Init_Join_roundtrip_witness :
  OSCompatibleThread.Join os_ok (OSCompatibleThread.mk_OSCT 7 true) =
    (OSCompatibleThread.SUCCESS, OSCompatibleThread.OSCT_default,
     [pthread_join_c 7; pthread_attr_destroy_c]).
Proof.
  exact (proj1 (proj2 (OSCT_Init_Join_roundtrip os_ok os_ok os_ok 1%nat 1%nat
           OSCompatibleThread.OSCT_default _ 99 1 99 1 [true] [true] _ eq_refl)) eq_refl eq_refl).
Defined.

Lemma join_detach_reset_handle_witness :
  let w := snd (thread_ctor os_ok 1%nat 2%nat returns_void w_empty) in
  w_objs w !! 1%nat = Some (mk_thread 7 true (Some 2%nat) (Some 2%nat) DEFAULT_PROPERTIES) /\
  fst (detach os_ok 1%nat w) = Ok tt.
Proof.
  intros w.
  assert (Ht : w_objs w !! 1%nat =
                 Some (mk_thread 7 true (Some 2%nat) (Some 2%nat) DEFAULT_PROPERTIES))
    by reflexivity.
  split; [exact Ht|].
  exact (proj1 (proj1 (proj2 (proj2 (proj2
           (join_detach_reset_handle os_ok 1%nat _ w Ht (detach os_ok 1%nat)
              (pthread_detach_c 7) "Failed to detach thread"
              (or_intror (conj eq_refl (conj eq_refl eq_refl))))))) eq_refl)).
Defined.

Lemma detach_keeps_result_witness :
  let f := returns (VInt 7) in
  let w1 := snd (thread_ctor os_ok 1%nat 2%nat f w_empty) in
  constructed os_ok 1%nat 2%nat f w_empty w1 /\
  fst ((detach os_ok 1%nat;; run_thread 7;; getResult 1%nat) w1) = Ok (any_of (VInt 7)).
Proof.
  intros f w1.
  assert (Hc : constructed os_ok 1%nat 2%nat f w_empty w1) by (left; reflexivity).
  split; [exact Hc|].
  exact (detach_keeps_result os_ok os_ok 1%nat 2%nat f w_empty w1 Hc eq_refl).
Defined.

(** An OS on which pthread_create fails. *)
Lemma ctor_outcome_witness :
  let os := mk_os (fun c => match c with pthread_create_c _ => 11 | _ => 0 end) 7 in
  fst (thread_ctor os 1%nat 2%nat returns_void w_empty) =
    Throw (RuntimeError "Failed to create thread :").
Proof.
  intros os.
  exact (proj1 (proj1 (proj2 (ctor_outcome os 1%nat 2%nat returns_void w_empty))
           ltac:(discriminate))).
Defined.

(** [t2 = std::move(t1)] where [t2] runs thread 9 and pthread_join fails. *)
Lemma move_assign_edges_witness :
  let os := mk_os (fun c => match c with pthread_join_c _ => 3 | _ => 0 end) 9 in
  let w := snd (thread_ctor os 3%nat 4%nat returns_void
                  (snd (thread_ctor os_ok 1%nat 2%nat returns_void w_empty))) in
  w_objs w !! 3%nat = Some (mk_thread 9 true (Some 4%nat) (Some 4%nat) DEFAULT_PROPERTIES) /\
  fst (move_assign os 3%nat 1%nat w) = Crash "std::terminate".
Proof.
  intros os w.
  assert (Ht : w_objs w !! 3%nat =
                 Some (mk_thread 9 true (Some 4%nat) (Some 4%nat) DEFAULT_PROPERTIES))
    by reflexivity.
  split; [exact Ht|].
  exact (proj2 (proj2 (move_assign_edges os 3%nat 1%nat _
           (mk_thread 7 true (Some 2%nat) (Some 2%nat) DEFAULT_PROPERTIES) w)) ltac:(discriminate) Ht
           eq_refl ltac:(discriminate)).
Defined.

Lemma move_out_and_back_witness :
  let f := returns (VInt 7) in
  let w1 := snd (thread_ctor os_ok 1%nat 2%nat f w_empty) in
  constructed os_ok 1%nat 2%nat f w_empty w1 /\
  fst ((move_ctor 3%nat 1%nat false DEFAULT_PROPERTIES;; move_assign os_ok 1%nat 3%nat;;
        run_thread 7;; getResult 1%nat) w1) = Ok (any_of (VInt 7)).
Proof.
  intros f w1.
  assert (Hc : constructed os_ok 1%nat 2%nat f w_empty w1) by (left; reflexivity).
  split; [exact Hc|].
  exact (proj2 (proj2 (proj2 (move_out_and_back os_ok 3%nat 1%nat 2%nat f w_empty w1 false
           DEFAULT_PROPERTIES ltac:(discriminate) Hc)))).
Defined.

(** Only core 1024 flagged, in a vector of 1025. *)
Lemma cores_past_setsize_dropped_witness :
  let cores := repeat false 1024 ++ [true] in
  OSCompatibleThread.SetCPUcores os_ok cores =
    (OSCompatibleThread.SUCCESS, [pthread_attr_setaffinity_np_c []]).
Proof.
  intros cores.
  exact (proj1 (cores_past_setsize_dropped os_ok cores ltac:(vm_compute; discriminate)
    ltac:(intros i Hi; vm_compute in Hi; destruct Hi as [<- | []]; vm_compute; lia))).
Defined.

End Witnesses.

Module Counterexamples.
Import OSCompatible Theory.

(** C3 as stated fails: with priority 10, policy 1 and affinity {core 0},
    the policy is set before the priority, and [pthread_create] is passed a
    null attribute pointer, not [&m_attr]. *)
Lemma ctor_props_attr_order_counterexample :
  let w1 := snd (thread_ctor_props os_ok 1%nat 2%nat
                   (mk_Properties 10 1 [true; false]) returns_void w_empty) in
  w_trace w1 =
    [pthread_attr_init_c; pthread_attr_setschedpolicy_c 1;
     pthread_attr_setschedparam_c 10; pthread_attr_setaffinity_np_c [0%nat];
     pthread_attr_setinheritsched_c; pthread_create_c None] /\
  ~ (exists pre post, w_trace w1 = pre ++ pthread_attr_setschedparam_c 10 :: post /\
       In (pthread_attr_setschedpolicy_c 1) post) /\
  ~ In (pthread_create_c (Some 1%nat)) (w_trace w1).
Proof.
  intros w1.
  assert (Htr : w_trace w1 =
    [pthread_attr_init_c; pthread_attr_setschedpolicy_c 1;
     pthread_attr_setschedparam_c 10; pthread_attr_setaffinity_np_c [0%nat];
     pthread_attr_setinheritsched_c; pthread_create_c None]) by reflexivity.
  split; [exact Htr|]. rewrite Htr. split.
  - intros (pre & post & Heq & Hin).
    destruct pre as [|a1 [|a2 [|a3 [|a4 [|a5 [|a6 pre]]]]]]; cbn in Heq;
      inversion Heq; subst; try (destruct pre; discriminate);
      cbn in Hin; repeat (destruct Hin as [Hin|Hin]; [discriminate|]); exact Hin.
  - cbn. intuition discriminate.
Qed.

(** C4 as stated fails: a callable returning 7; the first getResult
    returns 7, the second does not return the same outcome. *)
Lemma getResult_idempotent_counterexample :
  let w1 := snd (thread_ctor os_ok 1%nat 2%nat (returns (VInt 7)) w_empty) in
  let (first, w2) := observe os_ok 1%nat w1 in
  first = Ok (any_of (VInt 7)) /\ fst (getResult 1%nat w2) <> first.
Proof.
  cbn. split; [reflexivity | discriminate].
Qed.

End Counterexamples.
